(** * BMI Calculator: the core logic of [main.py], over IEEE 754 binary64

    Python's [float] is the binary64 format, which is what Rocq's primitive
    [float] implements, so the products, the quotients and the comparisons
    below are the ones the interpreter performs, NaN, the infinities and the
    signed zeros included.  Operations that can raise in Python ([/] on a
    zero divisor, [**] on overflow) return a [result].

    The Streamlit widgets and the Altair rendering are outside: [main] is
    the function from what the widgets return to what is shown, and
    [render_band_chart] returns the data it hands to the charting library. *)

From Stdlib Require Import ZArith Bool List Lia.
From Stdlib Require Import Floats.
From stdpp Require Import base strings gmap.

Set Warnings "-inexact-float".

Local Open Scope Z_scope.

(** ** Python outcomes *)

Inductive exn : Set :=
| ZeroDivisionError
| OverflowError.

Inductive result (A : Type) : Type :=
| Ok (a : A)
| Raise (e : exn).

Arguments Ok {A} a.
Arguments Raise {A} e.

#[global] Instance result_ret : MRet result := fun _ a => Ok a.

#[global] Instance result_bind : MBind result := fun _ _ k r =>
  match r with
  | Ok a => k a
  | Raise e => Raise e
  end.

(** ** Float primitives as Python exposes them *)

Module PyFloat.

Definition nan : float := PrimFloat.nan.
Definition inf : float := PrimFloat.infinity.

(** [math.isnan] *)
Definition isnan (x : float) : bool := PrimFloat.is_nan x.

Definition lt (x y : float) : bool := PrimFloat.ltb x y.
Definition le (x y : float) : bool := PrimFloat.leb x y.
Definition gt (x y : float) : bool := PrimFloat.ltb y x.

(** [x * y]: never raises, an overflow gives an infinity. *)
Definition mul (x y : float) : float := PrimFloat.mul x y.

(** [x / y]: [float_div] raises on a divisor equal to zero (of either sign). *)
Definition truediv (x y : float) : result float :=
  if PrimFloat.eqb y 0%float then Raise ZeroDivisionError
  else Ok (PrimFloat.div x y).

(** [x ** 2]: [float_pow] with the exponent 2.0.  NaN, the infinities and the
    zeros are answered before libm is called; a negative base is replaced by
    its absolute value, the exponent being even.  A finite base whose square
    is not finite raises [OverflowError]; an underflow to zero does not
    raise.  libm's [pow(x, 2.0)] is taken as the correctly rounded square. *)
Definition pow2 (x : float) : result float :=
  if PrimFloat.is_nan x then Ok x
  else if PrimFloat.is_infinity x then Ok (PrimFloat.abs x)
  else if PrimFloat.eqb x 0%float then Ok 0%float
  else
    let ix := PrimFloat.mul (PrimFloat.abs x) (PrimFloat.abs x) in
    if PrimFloat.is_infinity ix then Raise OverflowError else Ok ix.

(** Nearest integer to [num / den], ties to even ([den] positive). *)
Definition round_half_even (num den : Z) : Z :=
  let q := num / den in
  match 2 * (num mod den) ?= den with
  | Lt => q
  | Gt => q + 1
  | Eq => if Z.even q then q else q + 1
  end.

(** [round(x, 1)]: the exact binary value is rounded to one decimal place,
    ties to even, and the decimal is read back as the nearest float.  NaN,
    the infinities and the zeros round to themselves; the sign is kept. *)
Definition round1 (x : float) : float :=
  match Prim2SF x with
  | S754_finite s m e =>
      let tenths :=
        if 0 <=? e then 10 * Z.pos m * 2 ^ e
        else round_half_even (10 * Z.pos m) (2 ^ (- e)) in
      match tenths with
      | Z.pos p => SF2Prim (SFdiv prec emax (S754_finite s p 0) (S754_finite false 10 0))
      | _ => if s then (-0)%float else 0%float
      end
  | _ => x
  end.

End PyFloat.

(** ** Constants *)

(** Thresholds: (label, lower bound inclusive, upper bound exclusive, color). *)
Definition BMI_BANDS : list (string * float * float * string) :=
  [ ("Underweight", 0.0%float, 18.5%float, "#1976D2");
    ("Normal", 18.5%float, 25.0%float, "#2E7D32");
    ("Overweight", 25.0%float, 30.0%float, "#ED6C02");
    ("Obese", 30.0%float, PyFloat.inf, "#C62828") ].

(** ** Core logic *)

Definition kg_from_lbs (pounds : float) : float :=
  PyFloat.mul pounds 0.45359237%float.

Definition meters_from_inches (inches : float) : float :=
  PyFloat.mul inches 0.0254%float.

(** Compute BMI = kg / m^2.  Returns NaN if inputs invalid. *)
Definition bmi (weight_kg height_m : float) : result float :=
  if PyFloat.le height_m 0%float || PyFloat.le weight_kg 0%float then
    Ok PyFloat.nan
  else
    sq ← PyFloat.pow2 height_m;
    PyFloat.truediv weight_kg sq.

(** Return (category, tone) for badge styling. *)
Definition classify_bmi (bmi_value : float) : string * string :=
  if PyFloat.isnan bmi_value then ("—", "info")
  else if PyFloat.lt bmi_value 18.5%float then ("Underweight", "info")
  else if PyFloat.lt bmi_value 25.0%float then ("Normal", "ok")
  else if PyFloat.lt bmi_value 30.0%float then ("Overweight", "warn")
  else ("Obese", "alert").


(** The four lists of the dict literal of [recommendations]. *)
Definition underweight_recs : list string :=
  [ "Discuss weight goals with a clinician or dietitian.";
    "Increase nutrient-dense calories; emphasize lean proteins and complex carbs.";
    "Screen for underlying causes (e.g., thyroid, malabsorption).";
    "Incorporate progressive resistance training." ].

Definition normal_recs : list string :=
  [ "Maintain balanced diet per evidence-based guidelines.";
    "Target ≥150 minutes/week of moderate activity.";
    "Prioritize sleep hygiene and stress management.";
    "Continue routine preventive care." ].

Definition overweight_recs : list string :=
  [ "Adopt calorie-aware, whole-food eating patterns.";
    "Increase physical activity; combine aerobic and strength training.";
    "Set incremental goals (e.g., 5–7% weight reduction).";
    "Consider coaching or registered dietitian support." ].

Definition obese_recs : list string :=
  [ "Partner with a clinician for a comprehensive plan.";
    "Combine nutrition therapy, activity, and behavior strategies.";
    "Discuss adjuncts when appropriate (pharmacotherapy, bariatric referral).";
    "Address comorbidities (HTN, T2DM, OSA) and monitor regularly." ].

(** The dict literal itself; its keys are distinct.  It is built anew at
    every call, so no caller can change what a later call returns. *)
Definition recs : gmap string (list string) :=
  list_to_map
    [ ("Underweight", underweight_recs);
      ("Normal", normal_recs);
      ("Overweight", overweight_recs);
      ("Obese", obese_recs);
      ("—", []) ].

(** [recs.get(category, [])] *)
Definition recommendations (category : string) : list string :=
  default [] (recs !! category).

(** ** The band chart *)

(** numpy's scalar [clip]: [minimum(maximum(x, lo), hi)], where a NaN first
    operand is returned as it is. *)
Module Numpy.

Definition maximum (a b : float) : float :=
  if PrimFloat.is_nan a then a else if PrimFloat.ltb b a then a else b.

Definition minimum (a b : float) : float :=
  if PrimFloat.is_nan a then a else if PrimFloat.ltb a b then a else b.

Definition clip (x lo hi : float) : float := minimum (maximum x lo) hi.

End Numpy.

(** What [render_band_chart] hands to the charting library: the four bars,
    the axis domain and the position of the tick. *)
Record chart : Type := Chart {
  thresholds : list (string * float * float * string);
  domain : float * float;
  point_val : float
}.

(** Color-coded range bars + current BMI marker. *)
Definition render_band_chart (bmi_value : float) : chart :=
  let display_min := 10.0%float in
  let display_max := 40.0%float in
  {| thresholds :=
       [ ("Underweight", 10.0%float, 18.5%float, "#1976D2");
         ("Normal", 18.5%float, 25.0%float, "#2E7D32");
         ("Overweight", 25.0%float, 30.0%float, "#ED6C02");
         ("Obese", 30.0%float, 40.0%float, "#C62828") ];
     domain := (display_min, display_max);
     point_val :=
       Numpy.clip (if negb (PyFloat.isnan bmi_value) then bmi_value else 0%float)
                  display_min display_max |}.

(** ** The application *)

(** [needle in s] on strings. *)
Fixpoint contains (needle s : string) : bool :=
  String.prefix needle s ||
  match s with
  | EmptyString => false
  | String _ rest => contains needle rest
  end.

(** What one run of [main] shows under "Results": the BMI, the category and
    its tone, and, unless the BMI is NaN (then only the hint to enter valid
    values is shown), the chart and the recommendation lines. *)
Record results : Type := Results {
  bmi_value : float;
  category : string;
  tone : string;
  shown : option (chart * list string)
}.

(** [main], as a function of what the three widgets return: the radio's
    label and the two number inputs. *)
Definition main (unit_system : string) (height weight_in : float) : result results :=
  '(height_m, weight) ←
    (if contains "Metric" unit_system then
       height_m ← PyFloat.truediv height 100.0%float;
       Ok (height_m, weight_in)
     else
       Ok (meters_from_inches height, kg_from_lbs weight_in));
  bmi_value ←
    (if PyFloat.gt height_m 0%float && PyFloat.gt weight 0%float then
       b ← bmi weight height_m;
       Ok (PyFloat.round1 b)
     else Ok PyFloat.nan);
  let '(category, tone) := classify_bmi bmi_value in
  Ok {| bmi_value := bmi_value;
        category := category;
        tone := tone;
        shown :=
          if PyFloat.isnan bmi_value then None
          else Some (render_band_chart bmi_value, recommendations category) |}.


(** ** The style sheet *)


(** ** Notions the statements use *)

(** The half-open interval of a row of the band table: lower bound
    inclusive, upper bound exclusive. *)
Definition in_band (b : float) (band : string * float * float * string) : bool :=
  let '(_, lo, hi, _) := band in PyFloat.le lo b && PyFloat.lt b hi.

Definition band_label (band : string * float * float * string) : string :=
  let '(label, _, _, _) := band in label.

(** The rows of [BMI_BANDS] whose interval holds [b], in table order. *)
Definition bands_containing (b : float) : list (string * float * float * string) :=
  List.filter (in_band b) BMI_BANDS.

(** The five answers [classify_bmi] can give. *)
Definition classify_outcomes : list (string * string) :=
  [ ("—", "info"); ("Underweight", "info"); ("Normal", "ok");
    ("Overweight", "warn"); ("Obese", "alert") ].

(** The position of a label in the band table, [None] for a label that is
    not one of its rows. *)
Fixpoint index_of (label : string) (labels : list string) : option nat :=
  match labels with
  | [] => None
  | l :: rest =>
      if String.eqb label l then Some 0%nat
      else option_map S (index_of label rest)
  end.

Definition band_index (label : string) : option nat :=
  index_of label (map band_label BMI_BANDS).

(** The height in metres and the weight in kilograms that [main] computes
    from the widget values, the quotient by 100.0 taken as it is: the divisor
    is not zero. *)
Definition height_m_of (unit_system : string) (height : float) : float :=
  if contains "Metric" unit_system then PrimFloat.div height 100.0%float
  else meters_from_inches height.

Definition weight_of (unit_system : string) (weight_in : float) : float :=
  if contains "Metric" unit_system then weight_in
  else kg_from_lbs weight_in.

(** What [main] shows when an input is not valid: no number, the
    placeholder category, and the hint in place of chart and list. *)
Definition hint_only : results :=
  {| bmi_value := PyFloat.nan; category := "—"; tone := "info"; shown := None |}.

(** A binary64 datum that is NaN, a zero, or has the sign bit [s]. *)
Definition SF_signed (s : bool) (x : spec_float) : Prop :=
  match x with
  | S754_nan | S754_zero _ => True
  | S754_infinity s' | S754_finite s' _ _ => s' = s
  end.

(** ** The order of binary64 values *)

Module FloatOrder.

Ltac fold_pos_compare :=
  repeat match goal with
  | |- context [PosDef.Pos.compare_cont Eq ?a ?b] =>
      change (PosDef.Pos.compare_cont Eq a b) with (Pos.compare a b)
  | H : context [PosDef.Pos.compare_cont Eq ?a ?b] |- _ =>
      change (PosDef.Pos.compare_cont Eq a b) with (Pos.compare a b) in H
  end.

Ltac cmp_cases :=
  repeat match goal with
  | |- context [Z.compare ?a ?b] => destruct (Z.compare_spec a b)
  | H : context [Z.compare ?a ?b] |- _ => destruct (Z.compare_spec a b)
  | |- context [Pos.compare ?a ?b] => destruct (Pos.compare_spec a b)
  | H : context [Pos.compare ?a ?b] |- _ => destruct (Pos.compare_spec a b)
  end.

Ltac sf_order :=
  simpl;
  repeat match goal with s : bool |- _ => destruct s end;
  simpl in *; try congruence; fold_pos_compare;
  cmp_cases; simpl in *; subst; try congruence; try lia.

(** The comparison of the specification, [SFcompare], is a total preorder
    on everything but NaN. *)

Lemma SFcompare_swap (x y : spec_float) :
  SFcompare y x = option_map CompOpp (SFcompare x y).
Proof. destruct x, y; sf_order. Qed.

Lemma SFcompare_refl (x : spec_float) :
  x <> S754_nan -> SFcompare x x = Some Eq.
Proof. destruct x; sf_order. Qed.

Lemma SFcompare_lt_trans (x y z : spec_float) :
  SFcompare x y = Some Lt -> SFcompare y z = Some Lt -> SFcompare x z = Some Lt.
Proof. destruct x, y, z; intros Hxy Hyz; revert Hxy Hyz; sf_order. Qed.

Lemma SFcompare_lt_eq_trans (x y z : spec_float) :
  SFcompare x y = Some Lt -> SFcompare y z = Some Eq -> SFcompare x z = Some Lt.
Proof. destruct x, y, z; intros Hxy Hyz; revert Hxy Hyz; sf_order. Qed.

Lemma SFcompare_None (x y : spec_float) :
  SFcompare x y = None -> x = S754_nan \/ y = S754_nan.
Proof. destruct x, y; simpl; intros H; try discriminate H; auto. Qed.

(** The same facts on the primitive comparisons. *)

Lemma is_nan_spec (x : float) :
  PrimFloat.is_nan x = true <-> Prim2SF x = S754_nan.
Proof.
  unfold PrimFloat.is_nan. rewrite FloatAxioms.eqb_spec. unfold SFeqb. split.
  - intros H. destruct (Prim2SF x) eqn:E; try reflexivity;
      rewrite SFcompare_refl in H by discriminate; discriminate H.
  - intros ->. reflexivity.
Qed.

Lemma is_nan_false (x : float) :
  PrimFloat.is_nan x = false <-> Prim2SF x <> S754_nan.
Proof.
  rewrite <- is_nan_spec. destruct (PrimFloat.is_nan x); split; congruence.
Qed.

Lemma ltb_iff (x y : float) :
  PrimFloat.ltb x y = true <-> SFcompare (Prim2SF x) (Prim2SF y) = Some Lt.
Proof.
  rewrite FloatAxioms.ltb_spec. unfold SFltb.
  destruct (SFcompare _ _) as [[]|]; split; congruence.
Qed.

Lemma leb_iff (x y : float) :
  PrimFloat.leb x y = true <->
  SFcompare (Prim2SF x) (Prim2SF y) = Some Lt \/
  SFcompare (Prim2SF x) (Prim2SF y) = Some Eq.
Proof.
  rewrite FloatAxioms.leb_spec. unfold SFleb.
  destruct (SFcompare _ _) as [[]|]; split; intuition congruence.
Qed.

Lemma ltb_not_nan (x y : float) :
  PrimFloat.ltb x y = true ->
  PrimFloat.is_nan x = false /\ PrimFloat.is_nan y = false.
Proof.
  rewrite ltb_iff, !is_nan_false. intros H.
  split; intros E; rewrite E in H; [| destruct (Prim2SF x)]; discriminate H.
Qed.

Lemma leb_not_nan (x y : float) :
  PrimFloat.leb x y = true ->
  PrimFloat.is_nan x = false /\ PrimFloat.is_nan y = false.
Proof.
  rewrite leb_iff, !is_nan_false. intros [H|H];
    (split; intros E; rewrite E in H; [| destruct (Prim2SF x)]; discriminate H).
Qed.

(** On values that are not NaN, [x < y] is the negation of [y <= x]. *)
Lemma ltb_negb_leb (x y : float) :
  PrimFloat.is_nan x = false -> PrimFloat.is_nan y = false ->
  PrimFloat.ltb x y = negb (PrimFloat.leb y x).
Proof.
  rewrite !is_nan_false, FloatAxioms.ltb_spec, FloatAxioms.leb_spec. unfold SFltb, SFleb.
  intros Hx Hy. rewrite (SFcompare_swap (Prim2SF x) (Prim2SF y)).
  destruct (SFcompare (Prim2SF x) (Prim2SF y)) as [[]|] eqn:E; try reflexivity.
  apply SFcompare_None in E. tauto.
Qed.

Lemma ltb_leb_false (x y : float) :
  PrimFloat.ltb x y = true -> PrimFloat.leb y x = false.
Proof.
  intros H. destruct (ltb_not_nan _ _ H) as [Hx Hy].
  rewrite (ltb_negb_leb x y Hx Hy) in H.
  destruct (PrimFloat.leb y x); [discriminate H | reflexivity].
Qed.

Lemma leb_ltb_false (x y : float) :
  PrimFloat.leb x y = true -> PrimFloat.ltb y x = false.
Proof.
  intros H. destruct (leb_not_nan _ _ H) as [Hx Hy].
  rewrite (ltb_negb_leb y x Hy Hx), H. reflexivity.
Qed.

Lemma ltb_trans (x y z : float) :
  PrimFloat.ltb x y = true -> PrimFloat.ltb y z = true -> PrimFloat.ltb x z = true.
Proof. rewrite !ltb_iff. apply SFcompare_lt_trans. Qed.

Lemma ltb_leb_trans (x y z : float) :
  PrimFloat.ltb x y = true -> PrimFloat.leb y z = true -> PrimFloat.ltb x z = true.
Proof.
  rewrite !ltb_iff, leb_iff. intros Hxy [Hyz|Hyz].
  - eapply SFcompare_lt_trans; eassumption.
  - eapply SFcompare_lt_eq_trans; eassumption.
Qed.

End FloatOrder.

(** ** Band classification *)

Section Thresholds.

Import FloatOrder.

Variable b : float.
Hypothesis b_not_nan : PyFloat.isnan b = false.

(** Against a threshold [c], [b < c] and [c <= b] exclude each other and
    one of them holds. *)
Lemma below_or_from (c : float) :
  PrimFloat.is_nan c = false ->
  PyFloat.lt b c = negb (PyFloat.le c b).
Proof. intros Hc. apply ltb_negb_leb; [exact b_not_nan | exact Hc]. Qed.

(** The thresholds are increasing, so the tests of [classify_bmi] nest. *)
Lemma below_mono (c d : float) :
  PrimFloat.ltb c d = true ->
  PyFloat.lt b c = true -> PyFloat.lt b d = true.
Proof. intros Hcd Hbc. exact (ltb_trans b c d Hbc Hcd). Qed.

End Thresholds.

(** The eight outcomes of the three threshold tests on [b], less those the
    two lemmas above exclude. *)
Ltac threshold_cases b Hnan :=
  pose proof (below_or_from b Hnan 18.5%float eq_refl) as H18;
  pose proof (below_or_from b Hnan 25.0%float eq_refl) as H25;
  pose proof (below_or_from b Hnan 30.0%float eq_refl) as H30;
  pose proof (below_mono b 18.5%float 25.0%float eq_refl) as M1;
  pose proof (below_mono b 25.0%float 30.0%float eq_refl) as M2;
  destruct (PyFloat.le 18.5%float b), (PyFloat.le 25.0%float b),
    (PyFloat.le 30.0%float b);
  simpl in H18, H25, H30; rewrite ?H18, ?H25, ?H30 in *; simpl;
  try (specialize (M1 eq_refl)); try (specialize (M2 eq_refl));
  try discriminate.

(** C1. For a BMI value that is not NaN, [classify_bmi] answers by half-open
    intervals with the fixed tones: below 18.5 it is Underweight/info, from
    18.5 and below 25 Normal/ok, from 25 and below 30 Overweight/warn, from 30
    on Obese/alert; exactly one of the four intervals holds the value, and the
    boundary values 18.5, 25 and 30 fall in the upper band. *)
Theorem classify_bmi_half_open :
  (forall b : float,
     PyFloat.isnan b = false ->
     (PyFloat.lt b 18.5%float = true ->
        classify_bmi b = ("Underweight", "info")) /\
     (PyFloat.le 18.5%float b = true -> PyFloat.lt b 25.0%float = true ->
        classify_bmi b = ("Normal", "ok")) /\
     (PyFloat.le 25.0%float b = true -> PyFloat.lt b 30.0%float = true ->
        classify_bmi b = ("Overweight", "warn")) /\
     (PyFloat.le 30.0%float b = true ->
        classify_bmi b = ("Obese", "alert")) /\
     (Nat.b2n (PyFloat.lt b 18.5%float)
      + Nat.b2n (PyFloat.le 18.5%float b && PyFloat.lt b 25.0%float)
      + Nat.b2n (PyFloat.le 25.0%float b && PyFloat.lt b 30.0%float)
      + Nat.b2n (PyFloat.le 30.0%float b) = 1)%nat) /\
  classify_bmi 18.5%float = ("Normal", "ok") /\
  classify_bmi 18.4999%float = ("Underweight", "info") /\
  classify_bmi 25.0%float = ("Overweight", "warn") /\
  classify_bmi 29.9999%float = ("Overweight", "warn") /\
  classify_bmi 30.0%float = ("Obese", "alert").
Proof.
  split; [| repeat split; vm_compute; reflexivity].
  intros b Hnan. unfold classify_bmi. rewrite Hnan.
  threshold_cases b Hnan; repeat split; intros; congruence.
Qed.

(** The theorem at the three boundary values and inside each band. *)
Lemma classify_bmi_half_open_witness :
  classify_bmi 18.5%float = ("Normal", "ok") /\
  classify_bmi 25.0%float = ("Overweight", "warn") /\
  classify_bmi 30.0%float = ("Obese", "alert") /\
  classify_bmi 17.0%float = ("Underweight", "info").
Proof.
  pose proof (proj1 classify_bmi_half_open) as H.
  split; [| split; [| split]].
  - apply (H 18.5%float); reflexivity.
  - apply (H 25.0%float); reflexivity.
  - apply (H 30.0%float); reflexivity.
  - apply (H 17.0%float); reflexivity.
Defined.

(** C10. A negative BMI value that is not NaN is accepted and falls in the
    lowest band: [classify_bmi] answers Underweight/info. *)
Theorem classify_bmi_negative (b : float) :
  PyFloat.isnan b = false ->
  PyFloat.lt b 0%float = true ->
  classify_bmi b = ("Underweight", "info").
Proof.
  intros Hnan Hneg. unfold classify_bmi. rewrite Hnan.
  rewrite (below_mono b 0%float 18.5%float eq_refl Hneg). reflexivity.
Qed.

Lemma classify_bmi_negative_witness :
  classify_bmi (-3.5)%float = ("Underweight", "info") /\
  classify_bmi PrimFloat.neg_infinity = ("Underweight", "info").
Proof.
  split.
  - apply (classify_bmi_negative (-3.5)%float); reflexivity.
  - apply (classify_bmi_negative PrimFloat.neg_infinity); reflexivity.
Defined.

(** C4. On the NaN sentinel [classify_bmi] answers the placeholder
    ("—", "info"); with it the classifier is total: every float, NaN
    included, gets one of the five answers. *)
Theorem classify_bmi_nan :
  (forall b : float,
     PyFloat.isnan b = true -> classify_bmi b = ("—", "info")) /\
  classify_bmi PyFloat.nan = ("—", "info") /\
  (forall b : float, In (classify_bmi b) classify_outcomes).
Proof.
  split; [| split].
  - intros b Hnan. unfold classify_bmi. rewrite Hnan. reflexivity.
  - reflexivity.
  - intros b. unfold classify_bmi, classify_outcomes.
    destruct (PyFloat.isnan b), (PyFloat.lt b 18.5%float),
      (PyFloat.lt b 25.0%float), (PyFloat.lt b 30.0%float); simpl; tauto.
Qed.

Lemma classify_bmi_nan_witness :
  PyFloat.isnan (PrimFloat.div 0%float 0%float) = true /\
  classify_bmi (PrimFloat.div 0%float 0%float) = ("—", "info").
Proof.
  split; [reflexivity |].
  apply (proj1 classify_bmi_nan). reflexivity.
Defined.

(** ** Positive floats *)

Module FloatSign.

Import FloatOrder.

Lemma Prim2SF_zero : Prim2SF 0%float = S754_zero false.
Proof. reflexivity. Qed.

Lemma Prim2SF_infinity : Prim2SF PrimFloat.infinity = S754_infinity false.
Proof. reflexivity. Qed.

(** A float above zero is a positive finite number or plus infinity. *)
Lemma positive_shape (x : float) :
  PrimFloat.ltb 0%float x = true ->
  Prim2SF x = S754_infinity false \/
  exists m e, Prim2SF x = S754_finite false m e.
Proof.
  rewrite ltb_iff, Prim2SF_zero.
  destruct (Prim2SF x) as [s|s| |s m e]; simpl; try discriminate;
    destruct s; try discriminate; eauto.
Qed.

Lemma abs_positive (x : float) :
  PrimFloat.ltb 0%float x = true -> PrimFloat.abs x = x.
Proof.
  intros H. apply Prim2SF_inj. rewrite abs_spec.
  destruct (positive_shape x H) as [-> | (m & e & ->)]; reflexivity.
Qed.

Lemma eqb_zero_positive (x : float) :
  PrimFloat.ltb 0%float x = true -> PrimFloat.eqb x 0%float = false.
Proof.
  intros H. rewrite FloatAxioms.eqb_spec, Prim2SF_zero.
  destruct (positive_shape x H) as [-> | (m & e & ->)]; reflexivity.
Qed.

Lemma is_infinity_square (x : float) :
  PrimFloat.ltb 0%float x = true ->
  PrimFloat.is_infinity x = true ->
  PrimFloat.is_infinity (PrimFloat.mul x x) = true.
Proof.
  intros H. unfold PrimFloat.is_infinity.
  rewrite !FloatAxioms.eqb_spec, !abs_spec, mul_spec, Prim2SF_infinity.
  destruct (positive_shape x H) as [-> | (m & e & ->)];
    [reflexivity | discriminate].
Qed.

End FloatSign.

(** ** The BMI formula *)




(** C3. When the height or the weight is at most zero, [bmi] returns the NaN
    sentinel; it does not raise. *)
Theorem bmi_invalid_is_nan (weight_kg height_m : float) :
  PyFloat.le height_m 0%float = true \/ PyFloat.le weight_kg 0%float = true ->
  bmi weight_kg height_m = Ok PyFloat.nan /\
  PyFloat.isnan PyFloat.nan = true.
Proof.
  intros H. split; [| reflexivity]. unfold bmi.
  destruct H as [-> | ->]; [reflexivity |].
  rewrite orb_true_r. reflexivity.
Qed.

Lemma bmi_invalid_is_nan_witness :
  (bmi 70.0%float 0%float = Ok PyFloat.nan /\ PyFloat.isnan PyFloat.nan = true) /\
  (bmi (-1.0)%float 1.7%float = Ok PyFloat.nan /\ PyFloat.isnan PyFloat.nan = true) /\
  (bmi 0%float (-0.0)%float = Ok PyFloat.nan /\ PyFloat.isnan PyFloat.nan = true).
Proof.
  split; [| split].
  - apply (bmi_invalid_is_nan 70.0%float 0%float). left. reflexivity.
  - apply (bmi_invalid_is_nan (-1.0)%float 1.7%float). right. reflexivity.
  - apply (bmi_invalid_is_nan 0%float (-0.0)%float). left. reflexivity.
Defined.

(** ** Unit conversion *)

(** C8. [kg_from_lbs] multiplies by 0.45359237 and [meters_from_inches] by
    0.0254, for every float: there is no bounds check, so zero, negative
    numbers, the infinities and NaN go through the same product. *)
Theorem conversions_are_products :
  (forall pounds : float,
     kg_from_lbs pounds = PrimFloat.mul pounds 0.45359237%float) /\
  (forall inches : float,
     meters_from_inches inches = PrimFloat.mul inches 0.0254%float) /\
  kg_from_lbs 154.0%float = 69.85322498000001%float /\
  meters_from_inches 67.0%float = 1.7018%float /\
  kg_from_lbs (-2.0)%float = (-0.90718474)%float /\
  meters_from_inches 0%float = 0%float /\
  PyFloat.isnan (kg_from_lbs PyFloat.nan) = true.
Proof.
  repeat (split; [first [intros x; reflexivity | vm_compute; reflexivity] |]).
  reflexivity.
Qed.

(** ** Recommendations *)

Lemma recs_lookup_other (label : string) :
  label <> "Underweight" -> label <> "Normal" -> label <> "Overweight" ->
  label <> "Obese" -> label <> "—" ->
  recs !! label = None.
Proof.
  intros H1 H2 H3 H4 H5. unfold recs. simpl.
  rewrite !lookup_insert_ne by congruence. apply lookup_empty.
Qed.

(** C6. [recommendations] gives the empty list for the placeholder "—", for
    each of the four categories its own list of exactly four strings, always
    the same ones in the same order, and the empty list for any other label;
    the table has five keys. *)
Theorem recommendations_lookup :
  recommendations "—" = [] /\
  recommendations "Underweight" = underweight_recs /\
  recommendations "Normal" = normal_recs /\
  recommendations "Overweight" = overweight_recs /\
  recommendations "Obese" = obese_recs /\
  length underweight_recs = 4%nat /\
  length normal_recs = 4%nat /\
  length overweight_recs = 4%nat /\
  length obese_recs = 4%nat /\
  (forall label : string,
     label ∉ ["Underweight"; "Normal"; "Overweight"; "Obese"] ->
     recommendations label = []) /\
  size recs = 5%nat.
Proof.
  repeat (split; [vm_compute; reflexivity |]).
  split; [| vm_compute; reflexivity].
  intros label Hlabel. unfold recommendations.
  destruct (decide (label = "—")) as [-> | Hdash]; [vm_compute; reflexivity |].
  rewrite recs_lookup_other; [reflexivity | | | | | exact Hdash];
    intros ->; apply Hlabel; rewrite !elem_of_cons; tauto.
Qed.

Lemma recommendations_lookup_witness :
  recommendations "Morbidly obese" = [] /\
  recommendations "normal" = [] /\
  recommendations "" = [].
Proof.
  pose proof (proj1 (proj2 (proj2 (proj2 (proj2 (proj2 (proj2 (proj2 (proj2
    (proj2 recommendations_lookup)))))))))) as H.
  split; [| split]; apply H;
    rewrite !not_elem_of_cons; repeat (split; [discriminate |]);
    apply not_elem_of_nil.
Defined.

(** ** The marker of the band chart *)

Section Clip.

Import FloatOrder.

Variable x : float.
Hypothesis x_not_nan : PrimFloat.is_nan x = false.

Lemma clip_below :
  PrimFloat.leb x 10.0%float = true ->
  Numpy.clip x 10.0%float 40.0%float = 10.0%float.
Proof.
  intros H. unfold Numpy.clip, Numpy.maximum.
  rewrite x_not_nan, (leb_ltb_false _ _ H). reflexivity.
Qed.

Lemma clip_inside :
  PrimFloat.ltb 10.0%float x = true -> PrimFloat.ltb x 40.0%float = true ->
  Numpy.clip x 10.0%float 40.0%float = x.
Proof.
  intros Hlo Hhi. unfold Numpy.clip, Numpy.maximum, Numpy.minimum.
  rewrite x_not_nan, Hlo, x_not_nan, Hhi. reflexivity.
Qed.

Lemma clip_above :
  PrimFloat.leb 40.0%float x = true ->
  Numpy.clip x 10.0%float 40.0%float = 40.0%float.
Proof.
  intros H. unfold Numpy.clip, Numpy.maximum, Numpy.minimum.
  rewrite x_not_nan.
  rewrite (ltb_leb_trans 10.0%float 40.0%float x eq_refl H).
  rewrite x_not_nan, (leb_ltb_false _ _ H). reflexivity.
Qed.

End Clip.

(** C7. The marker of the chart is the BMI value clamped into the display
    domain [10, 40]: a value up to 10 gives 10, a value from 40 on gives 40,
    a value strictly between is kept; 5.0 gives 10.0 and 50.0 gives 40.0.  A
    NaN is replaced by 0 before the clamp, so its marker is at 10.0. *)
Theorem render_band_chart_marker :
  (forall b : float,
     point_val (render_band_chart b)
     = Numpy.clip (if PyFloat.isnan b then 0%float else b) 10.0%float 40.0%float) /\
  (forall b : float, domain (render_band_chart b) = (10.0%float, 40.0%float)) /\
  (forall b : float,
     PyFloat.isnan b = false ->
     (PyFloat.le b 10.0%float = true ->
        point_val (render_band_chart b) = 10.0%float) /\
     (PyFloat.lt 10.0%float b = true -> PyFloat.lt b 40.0%float = true ->
        point_val (render_band_chart b) = b) /\
     (PyFloat.le 40.0%float b = true ->
        point_val (render_band_chart b) = 40.0%float)) /\
  (forall b : float,
     PyFloat.isnan b = true -> point_val (render_band_chart b) = 10.0%float) /\
  point_val (render_band_chart 5.0%float) = 10.0%float /\
  point_val (render_band_chart 50.0%float) = 40.0%float /\
  point_val (render_band_chart PyFloat.nan) = 10.0%float.
Proof.
  split; [| split; [| split; [| split]]].
  - intros b. unfold render_band_chart. simpl.
    destruct (PyFloat.isnan b); reflexivity.
  - intros b. reflexivity.
  - intros b Hnan. unfold render_band_chart. simpl. rewrite Hnan. simpl.
    split; [| split].
    + apply clip_below. exact Hnan.
    + apply clip_inside. exact Hnan.
    + apply clip_above. exact Hnan.
  - intros b Hnan. unfold render_band_chart. simpl. rewrite Hnan. reflexivity.
  - split; [| split]; vm_compute; reflexivity.
Qed.

Lemma render_band_chart_marker_witness :
  point_val (render_band_chart 5.0%float) = 10.0%float /\
  point_val (render_band_chart 24.2%float) = 24.2%float /\
  point_val (render_band_chart 50.0%float) = 40.0%float /\
  point_val (render_band_chart (PrimFloat.sqrt (-1.0)%float)) = 10.0%float.
Proof.
  pose proof (proj1 (proj2 (proj2 render_band_chart_marker))) as Hclamp.
  pose proof (proj1 (proj2 (proj2 (proj2 render_band_chart_marker)))) as Hnan.
  split; [| split; [| split]].
  - apply (Hclamp 5.0%float); reflexivity.
  - apply (Hclamp 24.2%float); reflexivity.
  - apply (Hclamp 50.0%float); reflexivity.
  - apply (Hnan (PrimFloat.sqrt (-1.0)%float)). reflexivity.
Defined.

(** ** End to end *)


(** The rounding comes first: 53.4 kg at 170 cm has the BMI 18.477..., which
    alone is Underweight, and is shown as 18.5 and Normal. *)
Example main_rounds_before_classifying :
  bmi 53.4%float 1.7%float = Ok 18.477508650519034%float /\
  classify_bmi 18.477508650519034%float = ("Underweight", "info") /\
  (r ← main "Metric (cm, kg)" 170.0%float 53.4%float;
   Ok (bmi_value r, category r, tone r))
  = Ok (18.5%float, "Normal", "ok").
Proof. repeat split; vm_compute; reflexivity. Qed.

(** ** The band table against the classifier *)

(** C9 as it is written fails at plus infinity: it is not NaN and not below
    zero, [classify_bmi] calls it Obese, and no row of [BMI_BANDS] holds it,
    the upper bound of the last row being exclusive. *)
Lemma infinity_in_no_band :
  PyFloat.isnan PyFloat.inf = false /\
  PyFloat.le 0%float PyFloat.inf = true /\
  classify_bmi PyFloat.inf = ("Obese", "alert") /\
  bands_containing PyFloat.inf = [] /\
  map band_label (bands_containing PyFloat.inf)
    <> [fst (classify_bmi PyFloat.inf)].
Proof.
  repeat (split; [vm_compute; reflexivity |]).
  vm_compute. discriminate.
Qed.

(** C9, amended. For a finite BMI value from zero on, exactly one row of
    [BMI_BANDS] holds the value in its half-open interval, and its label is
    the one [classify_bmi] returns. *)
Theorem classify_bmi_agrees_with_BMI_BANDS (b : float) :
  PyFloat.isnan b = false ->
  PyFloat.le 0%float b = true ->
  PyFloat.lt b PyFloat.inf = true ->
  map band_label (bands_containing b) = [fst (classify_bmi b)].
Proof.
  intros Hnan Hpos Hfin.
  unfold bands_containing, BMI_BANDS, classify_bmi, in_band. simpl.
  rewrite Hnan, Hpos, Hfin.
  threshold_cases b Hnan; reflexivity.
Qed.

Lemma classify_bmi_agrees_with_BMI_BANDS_witness :
  map band_label (bands_containing 24.2%float) = ["Normal"] /\
  map band_label (bands_containing 0%float) = ["Underweight"] /\
  map band_label (bands_containing 30.0%float) = ["Obese"] /\
  map band_label (bands_containing 1e308%float) = ["Obese"].
Proof.
  split; [| split; [| split]].
  - apply (classify_bmi_agrees_with_BMI_BANDS 24.2%float); reflexivity.
  - apply (classify_bmi_agrees_with_BMI_BANDS 0%float); reflexivity.
  - apply (classify_bmi_agrees_with_BMI_BANDS 30.0%float); reflexivity.
  - apply (classify_bmi_agrees_with_BMI_BANDS 1e308%float); reflexivity.
Defined.

(** ** Signs through the arithmetic *)

Module FloatShape.

Import FloatOrder FloatSign.

(** Rounding keeps the sign it is given, whatever it does to the mantissa. *)
Lemma binary_round_aux_signed (s : bool) (mx ex : Z) (lx : location) :
  SF_signed s (binary_round_aux prec emax s mx ex lx).
Proof.
  unfold binary_round_aux.
  destruct (shr_fexp prec emax mx ex lx) as [mrs1 e1].
  destruct (shr_fexp prec emax _ e1 loc_Exact) as [mrs2 e2].
  destruct (shr_m mrs2); simpl; trivial.
  destruct (e2 <=? emax - prec); reflexivity.
Qed.

Lemma SFmul_signed (sx sy : bool) (x y : spec_float) :
  SF_signed sx x -> SF_signed sy y ->
  SF_signed (xorb sx sy) (SF64mul x y).
Proof.
  destruct x, y; simpl; trivial; try congruence.
  intros -> ->. apply binary_round_aux_signed.
Qed.

Lemma SFdiv_signed (sx sy : bool) (x y : spec_float) :
  SF_signed sx x -> SF_signed sy y -> (forall s, y <> S754_zero s) ->
  SF_signed (xorb sx sy) (SF64div x y).
Proof.
  destruct x as [s1|s1| |s1 m1 e1], y as [s2|s2| |s2 m2 e2];
    simpl; trivial; try congruence;
    try (intros _ _ H; exfalso; exact (H s2 eq_refl)).
  intros -> -> _. unfold SF64div. simpl.
  destruct (SFdiv_core_binary prec emax (Z.pos m1) e1 (Z.pos m2) e2) as [[mz ez] lz].
  apply binary_round_aux_signed.
Qed.

(** What the comparisons with zero say about the sign. *)

Lemma not_above_zero (x : float) :
  PrimFloat.ltb 0%float x = false -> SF_signed true (Prim2SF x).
Proof.
  rewrite FloatAxioms.ltb_spec, Prim2SF_zero. unfold SFltb.
  destruct (Prim2SF x) as [s|s| |s m e]; simpl; trivial;
    destruct s; simpl; congruence.
Qed.

Lemma not_below_zero (x : float) :
  PrimFloat.ltb x 0%float = false -> SF_signed false (Prim2SF x).
Proof.
  rewrite FloatAxioms.ltb_spec, Prim2SF_zero. unfold SFltb.
  destruct (Prim2SF x) as [s|s| |s m e]; simpl; trivial;
    destruct s; simpl; congruence.
Qed.

Lemma not_at_most_zero (x : float) :
  PrimFloat.leb x 0%float = false -> SF_signed false (Prim2SF x).
Proof.
  rewrite FloatAxioms.leb_spec, Prim2SF_zero. unfold SFleb.
  destruct (Prim2SF x) as [s|s| |s m e]; simpl; trivial;
    destruct s; simpl; congruence.
Qed.

Lemma signed_true_not_above (x : float) :
  SF_signed true (Prim2SF x) -> PrimFloat.ltb 0%float x = false.
Proof.
  rewrite FloatAxioms.ltb_spec, Prim2SF_zero. unfold SFltb.
  destruct (Prim2SF x) as [s|s| |s m e]; simpl; trivial; intros ->; reflexivity.
Qed.

Lemma signed_false_not_below (x : float) :
  SF_signed false (Prim2SF x) -> PrimFloat.ltb x 0%float = false.
Proof.
  rewrite FloatAxioms.ltb_spec, Prim2SF_zero. unfold SFltb.
  destruct (Prim2SF x) as [s|s| |s m e]; simpl; trivial; intros ->; reflexivity.
Qed.

Lemma signed_false_nan_or_from_zero (x : float) :
  SF_signed false (Prim2SF x) ->
  PrimFloat.is_nan x = true \/ PrimFloat.leb 0%float x = true.
Proof.
  intros H.
  destruct (PrimFloat.is_nan x) eqn:Hnan; [left; reflexivity | right].
  apply is_nan_false in Hnan.
  rewrite FloatAxioms.leb_spec, Prim2SF_zero. unfold SFleb.
  destruct (Prim2SF x) as [s|s| |s m e]; simpl in *; subst; congruence.
Qed.

(** A product with, or a quotient by, a positive finite constant is above
    zero only when the other operand is, and below zero only when it is. *)
Section PositiveConstant.

Variable c : float.
Variables (mc : positive) (ec : Z).
Hypothesis c_shape : Prim2SF c = S754_finite false mc ec.

Lemma mul_above_zero (x : float) :
  PrimFloat.ltb 0%float (PrimFloat.mul x c) = true -> PrimFloat.ltb 0%float x = true.
Proof.
  intros H. destruct (PrimFloat.ltb 0%float x) eqn:Hx; [reflexivity |].
  rewrite signed_true_not_above in H; [discriminate H |].
  rewrite mul_spec, c_shape.
  apply (SFmul_signed true false); [exact (not_above_zero x Hx) | reflexivity].
Qed.

Lemma mul_below_zero (x : float) :
  PrimFloat.ltb (PrimFloat.mul x c) 0%float = true -> PrimFloat.ltb x 0%float = true.
Proof.
  intros H. destruct (PrimFloat.ltb x 0%float) eqn:Hx; [reflexivity |].
  rewrite signed_false_not_below in H; [discriminate H |].
  rewrite mul_spec, c_shape.
  apply (SFmul_signed false false); [exact (not_below_zero x Hx) | reflexivity].
Qed.

Lemma div_above_zero (x : float) :
  PrimFloat.ltb 0%float (PrimFloat.div x c) = true -> PrimFloat.ltb 0%float x = true.
Proof.
  intros H. destruct (PrimFloat.ltb 0%float x) eqn:Hx; [reflexivity |].
  rewrite signed_true_not_above in H; [discriminate H |].
  rewrite div_spec, c_shape.
  apply (SFdiv_signed true false);
    [exact (not_above_zero x Hx) | reflexivity | discriminate].
Qed.

End PositiveConstant.

End FloatShape.

(** ** Signs of the conversions and of the BMI *)

(** X1. The unit conversions never flip a sign: a result above zero comes
    only from an input above zero, and a result below zero only from an input
    below zero.  The converse does not hold at the bottom of the range, where
    the product underflows to zero. *)
Theorem conversions_keep_sign :
  (forall pounds : float,
     PyFloat.gt (kg_from_lbs pounds) 0%float = true ->
     PyFloat.gt pounds 0%float = true) /\
  (forall pounds : float,
     PyFloat.lt (kg_from_lbs pounds) 0%float = true ->
     PyFloat.lt pounds 0%float = true) /\
  (forall inches : float,
     PyFloat.gt (meters_from_inches inches) 0%float = true ->
     PyFloat.gt inches 0%float = true) /\
  (forall inches : float,
     PyFloat.lt (meters_from_inches inches) 0%float = true ->
     PyFloat.lt inches 0%float = true) /\
  (PyFloat.gt 5e-324%float 0%float = true /\
   kg_from_lbs 5e-324%float = 0%float /\
   meters_from_inches 5e-324%float = 0%float).
Proof.
  split; [| split; [| split; [| split]]].
  - intros p. exact (FloatShape.mul_above_zero 0.45359237%float _ _ eq_refl p).
  - intros p. exact (FloatShape.mul_below_zero 0.45359237%float _ _ eq_refl p).
  - intros i. exact (FloatShape.mul_above_zero 0.0254%float _ _ eq_refl i).
  - intros i. exact (FloatShape.mul_below_zero 0.0254%float _ _ eq_refl i).
  - split; [| split]; vm_compute; reflexivity.
Qed.

Lemma conversions_keep_sign_witness :
  PyFloat.gt 154.0%float 0%float = true /\
  PyFloat.lt (-67.0)%float 0%float = true.
Proof.
  split.
  - apply (proj1 conversions_keep_sign 154.0%float). reflexivity.
  - apply (proj1 (proj2 (proj2 (proj2 conversions_keep_sign))) (-67.0)%float).
    reflexivity.
Defined.

(** The square [x ** 2], when it is returned, is NaN, a zero or positive. *)
Lemma pow2_signed (x sq : float) :
  PyFloat.pow2 x = Ok sq -> SF_signed false (Prim2SF sq).
Proof.
  unfold PyFloat.pow2.
  destruct (PrimFloat.is_nan x) eqn:Hnan.
  { intros [= <-]. apply FloatOrder.is_nan_spec in Hnan. rewrite Hnan. exact I. }
  destruct (PrimFloat.is_infinity x).
  { intros [= <-]. rewrite abs_spec. destruct (Prim2SF x); simpl; trivial. }
  destruct (PrimFloat.eqb x 0%float).
  { intros [= <-]. exact I. }
  destruct (PrimFloat.is_infinity _); [discriminate |].
  intros [= <-]. rewrite mul_spec, abs_spec.
  apply (FloatShape.SFmul_signed false false);
    destruct (Prim2SF x); simpl; trivial.
Qed.

Lemma eqb_zero_false_shape (x : float) :
  PrimFloat.eqb x 0%float = false -> forall s, Prim2SF x <> S754_zero s.
Proof.
  rewrite FloatAxioms.eqb_spec, FloatSign.Prim2SF_zero.
  intros H s E. rewrite E in H. discriminate H.
Qed.

(** X2. [bmi] never returns a negative number: what it returns is NaN or at
    least zero. *)
Theorem bmi_not_negative (weight_kg height_m v : float) :
  bmi weight_kg height_m = Ok v ->
  PyFloat.isnan v = true \/ PyFloat.le 0%float v = true.
Proof.
  unfold bmi.
  destruct (PyFloat.le height_m 0%float || PyFloat.le weight_kg 0%float) eqn:G.
  { intros [= <-]. left. reflexivity. }
  apply orb_false_iff in G. destruct G as [_ Gw].
  destruct (PyFloat.pow2 height_m) as [sq | e] eqn:Hsq; simpl; [| discriminate].
  unfold PyFloat.truediv.
  destruct (PrimFloat.eqb sq 0%float) eqn:Hz; [discriminate |].
  intros [= <-].
  apply FloatShape.signed_false_nan_or_from_zero. rewrite div_spec.
  apply (FloatShape.SFdiv_signed false false).
  - exact (FloatShape.not_at_most_zero _ Gw).
  - exact (pow2_signed _ _ Hsq).
  - exact (eqb_zero_false_shape _ Hz).
Qed.

Lemma bmi_not_negative_witness :
  PyFloat.isnan 24.221453287197235%float = true \/
  PyFloat.le 0%float 24.221453287197235%float = true.
Proof.
  apply (bmi_not_negative 70.0%float 1.7%float). reflexivity.
Defined.

(** ** What [main] shows *)

(** The two normalised measures that [main] tests and passes to [bmi]. *)
Lemma main_unfold (unit_system : string) (height weight_in : float) :
  main unit_system height weight_in
  = (bmi_value ←
       (if PyFloat.gt (height_m_of unit_system height) 0%float
           && PyFloat.gt (weight_of unit_system weight_in) 0%float
        then b ← bmi (weight_of unit_system weight_in)
                     (height_m_of unit_system height);
             Ok (PyFloat.round1 b)
        else Ok PyFloat.nan);
     Ok {| bmi_value := bmi_value;
           category := (classify_bmi bmi_value).1;
           tone := (classify_bmi bmi_value).2;
           shown :=
             if PyFloat.isnan bmi_value then None
             else Some (render_band_chart bmi_value,
                        recommendations (classify_bmi bmi_value).1) |}).
Proof.
  unfold main, height_m_of, weight_of.
  destruct (contains "Metric" unit_system); simpl.
  - destruct (_ && _); simpl.
    + destruct (bmi _ _) as [b | e]; simpl; [| reflexivity].
      destruct (classify_bmi _); reflexivity.
    + reflexivity.
  - destruct (_ && _); simpl.
    + destruct (bmi _ _) as [b | e]; simpl; [| reflexivity].
      destruct (classify_bmi _); reflexivity.
    + reflexivity.
Qed.

(** A height that is not above zero stays so in metres, a weight in
    kilograms, in either unit system. *)
Lemma height_m_of_above_zero (unit_system : string) (height : float) :
  PyFloat.gt (height_m_of unit_system height) 0%float = true ->
  PyFloat.gt height 0%float = true.
Proof.
  unfold height_m_of, PyFloat.gt. destruct (contains "Metric" unit_system).
  - exact (FloatShape.div_above_zero 100.0%float _ _ eq_refl height).
  - exact (FloatShape.mul_above_zero 0.0254%float _ _ eq_refl height).
Qed.

Lemma weight_of_above_zero (unit_system : string) (weight_in : float) :
  PyFloat.gt (weight_of unit_system weight_in) 0%float = true ->
  PyFloat.gt weight_in 0%float = true.
Proof.
  unfold weight_of, PyFloat.gt. destruct (contains "Metric" unit_system).
  - trivial.
  - exact (FloatShape.mul_above_zero 0.45359237%float _ _ eq_refl weight_in).
Qed.

(** X3. In either unit system, when the height or the weight entered is not
    above zero (zero, negative or NaN), [main] does not raise and shows only
    the hint: the BMI is NaN, the category the placeholder, and there is no
    chart and no recommendation. *)
Theorem main_invalid_input (unit_system : string) (height weight_in : float) :
  PyFloat.gt height 0%float = false \/ PyFloat.gt weight_in 0%float = false ->
  main unit_system height weight_in = Ok hint_only.
Proof.
  intros H. rewrite main_unfold.
  assert (PyFloat.gt (height_m_of unit_system height) 0%float
          && PyFloat.gt (weight_of unit_system weight_in) 0%float = false) as ->.
  { apply andb_false_iff. destruct H as [H | H]; [left | right].
    - destruct (PyFloat.gt (height_m_of _ _) _) eqn:E; [| reflexivity].
      rewrite (height_m_of_above_zero _ _ E) in H. discriminate H.
    - destruct (PyFloat.gt (weight_of _ _) _) eqn:E; [| reflexivity].
      rewrite (weight_of_above_zero _ _ E) in H. discriminate H. }
  reflexivity.
Qed.

Lemma main_invalid_input_witness :
  main "Metric (cm, kg)" 0%float 70.0%float = Ok hint_only /\
  main "Imperial (in, lbs)" 67.0%float (-154.0)%float = Ok hint_only /\
  main "Imperial (in, lbs)" PyFloat.nan 154.0%float = Ok hint_only.
Proof.
  split; [| split].
  - apply (main_invalid_input "Metric (cm, kg)" 0%float 70.0%float).
    left. reflexivity.
  - apply (main_invalid_input "Imperial (in, lbs)" 67.0%float (-154.0)%float).
    right. reflexivity.
  - apply (main_invalid_input "Imperial (in, lbs)" PyFloat.nan 154.0%float).
    left. reflexivity.
Defined.

(** ** When [bmi] raises *)

Module FloatZero.

Import FloatOrder FloatSign.

Lemma is_nan_eqb_zero (x : float) :
  PrimFloat.is_nan x = true -> PrimFloat.eqb x 0%float = false.
Proof.
  rewrite is_nan_spec, FloatAxioms.eqb_spec. intros ->. reflexivity.
Qed.

Lemma eqb_zero_not_infinity (x : float) :
  PrimFloat.eqb x 0%float = true -> PrimFloat.is_infinity x = false.
Proof.
  unfold PrimFloat.is_infinity.
  rewrite !FloatAxioms.eqb_spec, abs_spec, Prim2SF_zero, Prim2SF_infinity.
  destruct (Prim2SF x) as [s|s| |s m e]; simpl; try discriminate;
    try reflexivity; destruct s; simpl; discriminate.
Qed.

Lemma eqb_zero_leb (x : float) :
  PrimFloat.eqb x 0%float = true -> PrimFloat.leb x 0%float = true.
Proof.
  rewrite FloatAxioms.eqb_spec, FloatAxioms.leb_spec. unfold SFeqb, SFleb.
  destruct (SFcompare _ _) as [[]|]; congruence.
Qed.

End FloatZero.

(** [bmi] once the guard has let the inputs through, by the kind of height. *)

Lemma bmi_nan_height (weight_kg height_m : float) :
  PyFloat.le weight_kg 0%float = false ->
  PrimFloat.is_nan height_m = true ->
  bmi weight_kg height_m = Ok (PrimFloat.div weight_kg height_m).
Proof.
  intros Hw Hnan. unfold bmi, PyFloat.le, PyFloat.pow2 in *.
  assert (PrimFloat.leb height_m 0%float = false) as ->.
  { destruct (PrimFloat.leb height_m 0%float) eqn:E; [| reflexivity].
    apply FloatOrder.leb_not_nan in E. destruct E as [E _]. congruence. }
  rewrite Hw, Hnan. simpl. unfold PyFloat.truediv.
  rewrite (FloatZero.is_nan_eqb_zero _ Hnan). reflexivity.
Qed.

Lemma bmi_infinite_height (weight_kg height_m : float) :
  PyFloat.le weight_kg 0%float = false ->
  PyFloat.gt height_m 0%float = true ->
  PrimFloat.is_infinity height_m = true ->
  bmi weight_kg height_m = Ok (PrimFloat.div weight_kg height_m).
Proof.
  unfold PyFloat.gt. intros Hw Hh Hinf. unfold bmi, PyFloat.le, PyFloat.pow2 in *.
  rewrite (FloatOrder.ltb_leb_false _ _ Hh), Hw.
  destruct (FloatOrder.ltb_not_nan _ _ Hh) as [_ ->].
  rewrite Hinf, (FloatSign.abs_positive _ Hh). simpl. unfold PyFloat.truediv.
  rewrite (FloatSign.eqb_zero_positive _ Hh). reflexivity.
Qed.

Lemma bmi_finite_height (weight_kg height_m : float) :
  PyFloat.le weight_kg 0%float = false ->
  PyFloat.gt height_m 0%float = true ->
  PrimFloat.is_infinity height_m = false ->
  bmi weight_kg height_m
  = if PrimFloat.is_infinity (PrimFloat.mul height_m height_m)
    then Raise OverflowError
    else PyFloat.truediv weight_kg (PrimFloat.mul height_m height_m).
Proof.
  unfold PyFloat.gt. intros Hw Hh Hinf. unfold bmi, PyFloat.le, PyFloat.pow2 in *.
  rewrite (FloatOrder.ltb_leb_false _ _ Hh), Hw.
  destruct (FloatOrder.ltb_not_nan _ _ Hh) as [_ ->].
  rewrite Hinf, (FloatSign.eqb_zero_positive _ Hh), (FloatSign.abs_positive _ Hh).
  simpl.
  destruct (PrimFloat.is_infinity (PrimFloat.mul height_m height_m)); reflexivity.
Qed.

(** The guard of [bmi] lets a height through only if it is NaN or above
    zero. *)
Lemma height_through_guard (height_m : float) :
  PyFloat.le height_m 0%float = false ->
  PrimFloat.is_nan height_m = true \/ PyFloat.gt height_m 0%float = true.
Proof.
  unfold PyFloat.le, PyFloat.gt. intros H.
  destruct (PrimFloat.is_nan height_m) eqn:Hnan; [left; reflexivity | right].
  rewrite (FloatOrder.ltb_negb_leb 0%float height_m eq_refl Hnan), H. reflexivity.
Qed.

(** Every way [bmi] can raise. *)
Lemma bmi_raise_cases (weight_kg height_m : float) (e : exn) :
  bmi weight_kg height_m = Raise e ->
  PyFloat.le weight_kg 0%float = false /\
  PyFloat.gt height_m 0%float = true /\
  PrimFloat.is_infinity height_m = false /\
  (e = OverflowError /\
     PrimFloat.is_infinity (PrimFloat.mul height_m height_m) = true \/
   e = ZeroDivisionError /\
     PrimFloat.is_infinity (PrimFloat.mul height_m height_m) = false /\
     PrimFloat.eqb (PrimFloat.mul height_m height_m) 0%float = true).
Proof.
  intros H.
  destruct (PyFloat.le height_m 0%float) eqn:Gh.
  { unfold bmi in H. rewrite Gh in H. discriminate H. }
  destruct (PyFloat.le weight_kg 0%float) eqn:Gw.
  { unfold bmi in H. rewrite Gh, Gw in H. discriminate H. }
  destruct (height_through_guard _ Gh) as [Hnan | Hpos].
  { rewrite (bmi_nan_height _ _ Gw Hnan) in H. discriminate H. }
  destruct (PrimFloat.is_infinity height_m) eqn:Hinf.
  { rewrite (bmi_infinite_height _ _ Gw Hpos Hinf) in H. discriminate H. }
  rewrite (bmi_finite_height _ _ Gw Hpos Hinf) in H.
  repeat (split; [reflexivity || assumption |]).
  destruct (PrimFloat.is_infinity (PrimFloat.mul _ _)).
  - left. split; [congruence | reflexivity].
  - right. unfold PyFloat.truediv in H.
    destruct (PrimFloat.eqb (PrimFloat.mul _ _) 0%float); [| discriminate H].
    split; [congruence | split; reflexivity].
Qed.

(** X4. [bmi] raises in exactly two situations, both with a weight the
    guard lets through (above zero or NaN) and a height above zero:
    [ZeroDivisionError] when the square of the height underflows to zero, and
    [OverflowError] when the height is finite and its square overflows. *)
Theorem bmi_raises_iff (weight_kg height_m : float) :
  (bmi weight_kg height_m = Raise ZeroDivisionError <->
   PyFloat.le weight_kg 0%float = false /\
   PyFloat.gt height_m 0%float = true /\
   PrimFloat.eqb (PrimFloat.mul height_m height_m) 0%float = true) /\
  (bmi weight_kg height_m = Raise OverflowError <->
   PyFloat.le weight_kg 0%float = false /\
   PyFloat.gt height_m 0%float = true /\
   PrimFloat.is_infinity height_m = false /\
   PrimFloat.is_infinity (PrimFloat.mul height_m height_m) = true).
Proof.
  split; split.
  - intros H. destruct (bmi_raise_cases _ _ _ H) as (Hw & Hh & _ & [[E _] | (_ & _ & Hz)]);
      [discriminate E | auto].
  - intros (Hw & Hh & Hz).
    pose proof (FloatZero.eqb_zero_not_infinity _ Hz) as Hfin.
    assert (PrimFloat.is_infinity height_m = false) as Hinf.
    { destruct (PrimFloat.is_infinity height_m) eqn:E; [| reflexivity].
      rewrite (FloatSign.is_infinity_square _ Hh E) in Hfin. discriminate Hfin. }
    rewrite (bmi_finite_height _ _ Hw Hh Hinf), Hfin.
    unfold PyFloat.truediv. rewrite Hz. reflexivity.
  - intros H. destruct (bmi_raise_cases _ _ _ H) as (Hw & Hh & Hinf & [[_ Ho] | (E & _)]);
      [auto | discriminate E].
  - intros (Hw & Hh & Hinf & Ho).
    rewrite (bmi_finite_height _ _ Hw Hh Hinf), Ho. reflexivity.
Qed.

Lemma bmi_raises_iff_witness :
  bmi 70.0%float 5e-324%float = Raise ZeroDivisionError /\
  bmi PyFloat.nan 1e-200%float = Raise ZeroDivisionError /\
  bmi 70.0%float 1.5e154%float = Raise OverflowError.
Proof.
  split; [| split].
  - apply (proj1 (bmi_raises_iff 70.0%float 5e-324%float)).
    repeat split; reflexivity.
  - apply (proj1 (bmi_raises_iff PyFloat.nan 1e-200%float)).
    repeat split; reflexivity.
  - apply (proj2 (bmi_raises_iff 70.0%float 1.5e154%float)).
    repeat split; reflexivity.
Defined.

(** X5. [main] can raise only through [bmi]: when it does, both entries are
    above zero and the square of the height in metres has underflowed to zero
    or overflowed.  So it returns whenever that square is finite and not
    zero. *)
Theorem main_raises_only_on_extreme_height
    (unit_system : string) (height weight_in : float) (e : exn) :
  main unit_system height weight_in = Raise e ->
  PyFloat.gt height 0%float = true /\
  PyFloat.gt weight_in 0%float = true /\
  (e = OverflowError /\
     PrimFloat.is_infinity
       (PrimFloat.mul (height_m_of unit_system height)
                      (height_m_of unit_system height)) = true \/
   e = ZeroDivisionError /\
     PrimFloat.eqb
       (PrimFloat.mul (height_m_of unit_system height)
                      (height_m_of unit_system height)) 0%float = true).
Proof.
  rewrite main_unfold.
  destruct (PyFloat.gt (height_m_of _ _) _) eqn:Gh; simpl; [| discriminate].
  destruct (PyFloat.gt (weight_of _ _) _) eqn:Gw; simpl; [| discriminate].
  destruct (bmi _ _) as [b | e'] eqn:Hb; simpl; [discriminate |].
  intros [= <-].
  split; [exact (height_m_of_above_zero _ _ Gh) |].
  split; [exact (weight_of_above_zero _ _ Gw) |].
  destruct (bmi_raise_cases _ _ _ Hb) as (_ & _ & _ & [[E Ho] | (E & _ & Hz)]);
    [left | right]; split; assumption.
Qed.

Lemma main_raises_only_on_extreme_height_witness :
  PyFloat.gt 1e-198%float 0%float = true /\
  PyFloat.gt 70.0%float 0%float = true /\
  (ZeroDivisionError = OverflowError /\
     PrimFloat.is_infinity
       (PrimFloat.mul (height_m_of "Metric (cm, kg)" 1e-198%float)
                      (height_m_of "Metric (cm, kg)" 1e-198%float)) = true \/
   ZeroDivisionError = ZeroDivisionError /\
     PrimFloat.eqb
       (PrimFloat.mul (height_m_of "Metric (cm, kg)" 1e-198%float)
                      (height_m_of "Metric (cm, kg)" 1e-198%float)) 0%float = true).
Proof.
  apply (main_raises_only_on_extreme_height
           "Metric (cm, kg)" 1e-198%float 70.0%float ZeroDivisionError).
  vm_compute. reflexivity.
Defined.

(** ** When [bmi] returns NaN *)

Module FloatRound.

(** Shifting a mantissa that is not negative to the right leaves it so. *)
Lemma shr_1_nonneg (mrs : shr_record) :
  0 <= shr_m mrs -> 0 <= shr_m (shr_1 mrs).
Proof.
  destruct mrs as [m r s]. simpl.
  destruct m as [|p|p]; [| destruct p | intros H; exfalso]; simpl; lia.
Qed.

Lemma iter_shr_1_nonneg (p : positive) :
  forall mrs : shr_record, 0 <= shr_m mrs -> 0 <= shr_m (SpecFloat.iter_pos shr_1 p mrs).
Proof.
  induction p as [p IH | p IH |]; intros mrs H; simpl.
  - apply IH, IH, shr_1_nonneg, H.
  - apply IH, IH, H.
  - apply shr_1_nonneg, H.
Qed.

Lemma shr_fexp_nonneg (m e : Z) (l : location) :
  0 <= m -> 0 <= shr_m (fst (shr_fexp prec emax m e l)).
Proof.
  intros H. unfold shr_fexp, shr.
  assert (0 <= shr_m (shr_record_of_loc m l)) as H0.
  { destruct l as [|[]]; exact H. }
  destruct (fexp prec emax (Zdigits2 m + e) - e); simpl; trivial.
  apply iter_shr_1_nonneg, H0.
Qed.

Lemma round_nearest_even_nonneg (m : Z) (l : location) :
  0 <= m -> 0 <= round_nearest_even m l.
Proof.
  intros H. destruct l as [|[]]; simpl; try lia.
  destruct (Z.even m); lia.
Qed.

(** Rounding a mantissa that is not negative gives a zero, a finite number
    or an infinity, of the sign it is given: it does not give NaN. *)
Lemma binary_round_aux_cases (s : bool) (mx ex : Z) (lx : location) :
  0 <= mx ->
  binary_round_aux prec emax s mx ex lx = S754_zero s \/
  binary_round_aux prec emax s mx ex lx = S754_infinity s \/
  exists m e, binary_round_aux prec emax s mx ex lx = S754_finite s m e.
Proof.
  intros H. unfold binary_round_aux.
  pose proof (shr_fexp_nonneg mx ex lx H) as H1.
  destruct (shr_fexp prec emax mx ex lx) as [mrs1 e1]. simpl in H1.
  pose proof (shr_fexp_nonneg _ e1 loc_Exact
                (round_nearest_even_nonneg _ (loc_of_shr_record mrs1) H1)) as H2.
  destruct (shr_fexp prec emax _ e1 loc_Exact) as [mrs2 e2]. simpl in H2.
  destruct (shr_m mrs2) as [|m|m]; [auto | | lia].
  destruct (e2 <=? emax - prec); eauto.
Qed.

Lemma SFdiv_core_binary_nonneg (m1 m2 : positive) (e1 e2 : Z) :
  0 <= fst (fst (SFdiv_core_binary prec emax (Z.pos m1) e1 (Z.pos m2) e2)).
Proof.
  unfold SFdiv_core_binary.
  set (sh := _ - _ - _).
  set (m' := match sh with Z.pos _ => _ | Z0 => _ | Z.neg _ => _ end).
  assert (0 <= m') as Hm'.
  { subst m'. destruct sh; try lia. apply Z.shiftl_nonneg. lia. }
  pose proof (Z_div_mod m' (Z.pos m2) eq_refl) as Hdiv.
  destruct (Z.div_eucl m' (Z.pos m2)) as [q r]. simpl.
  destruct Hdiv as [Hq Hr]. nia.
Qed.

(** A quotient of two positive finite numbers is not NaN. *)
Lemma SFdiv_finite_not_nan (m1 m2 : positive) (e1 e2 : Z) :
  SF64div (S754_finite false m1 e1) (S754_finite false m2 e2) <> S754_nan.
Proof.
  unfold SF64div. simpl.
  pose proof (SFdiv_core_binary_nonneg m1 m2 e1 e2) as H.
  destruct (SFdiv_core_binary prec emax (Z.pos m1) e1 (Z.pos m2) e2) as [[q e'] l].
  simpl in H.
  destruct (binary_round_aux_cases false q e' l H) as [-> | [-> | (m & e & ->)]];
    discriminate.
Qed.

End FloatRound.

(** A float above zero is plus infinity or a positive finite number, and
    [is_infinity] tells which. *)
Lemma positive_cases (x : float) :
  PrimFloat.ltb 0%float x = true ->
  PrimFloat.is_infinity x = true /\ Prim2SF x = S754_infinity false \/
  PrimFloat.is_infinity x = false /\
    exists m e, Prim2SF x = S754_finite false m e.
Proof.
  intros H. unfold PrimFloat.is_infinity.
  rewrite FloatAxioms.eqb_spec, abs_spec, FloatSign.Prim2SF_infinity.
  destruct (FloatSign.positive_shape x H) as [E | (m & e & E)]; rewrite E.
  - left. split; reflexivity.
  - right. split; [reflexivity | eauto].
Qed.

(** X6. The NaN sentinel is kept for invalid input: for a weight and a height
    above zero that are not both infinite, what [bmi] returns is not NaN. *)
Theorem bmi_valid_not_nan (weight_kg height_m v : float) :
  PyFloat.gt weight_kg 0%float = true ->
  PyFloat.gt height_m 0%float = true ->
  PrimFloat.is_infinity weight_kg = false \/
    PrimFloat.is_infinity height_m = false ->
  bmi weight_kg height_m = Ok v ->
  PyFloat.isnan v = false.
Proof.
  unfold PyFloat.gt, PyFloat.isnan. intros Hw Hh Hfin Hv.
  pose proof (FloatOrder.ltb_leb_false _ _ Hw) as Gw.
  apply FloatOrder.is_nan_false.
  destruct (positive_cases _ Hh) as [[Hinf Eh] | [Hinf (mh & eh & Eh)]].
  - rewrite (bmi_infinite_height _ _ Gw Hh Hinf) in Hv. injection Hv as <-.
    destruct Hfin as [Hfin | Hfin]; [| congruence].
    destruct (positive_cases _ Hw) as [[Hiw _] | [_ (mw & ew & Ew)]]; [congruence |].
    rewrite div_spec, Eh, Ew. discriminate.
  - rewrite (bmi_finite_height _ _ Gw Hh Hinf) in Hv.
    destruct (PrimFloat.is_infinity (PrimFloat.mul height_m height_m)) eqn:Hsq;
      [discriminate Hv |].
    unfold PyFloat.truediv in Hv.
    destruct (PrimFloat.eqb (PrimFloat.mul height_m height_m) 0%float) eqn:Hz;
      [discriminate Hv |].
    injection Hv as <-.
    unfold PrimFloat.is_infinity in Hsq.
    rewrite FloatAxioms.eqb_spec, abs_spec, FloatSign.Prim2SF_infinity in Hsq.
    rewrite FloatAxioms.eqb_spec, FloatSign.Prim2SF_zero in Hz.
    rewrite div_spec. rewrite mul_spec, Eh in Hsq, Hz |- *. simpl in Hsq, Hz |- *.
    destruct (FloatRound.binary_round_aux_cases false
                (Z.pos (mh * mh)) (eh + eh) loc_Exact ltac:(lia))
      as [E | [E | (m & e & E)]]; rewrite E in Hsq, Hz |- *;
      [discriminate Hz | discriminate Hsq |].
    destruct (positive_cases _ Hw) as [[_ Ew] | [_ (mw & ew & Ew)]]; rewrite Ew.
    + discriminate.
    + apply FloatRound.SFdiv_finite_not_nan.
Qed.

Lemma bmi_valid_not_nan_witness :
  PyFloat.isnan 24.221453287197235%float = false /\
  PyFloat.isnan PyFloat.inf = false.
Proof.
  split.
  - apply (bmi_valid_not_nan 70.0%float 1.7%float); try reflexivity.
    left. reflexivity.
  - apply (bmi_valid_not_nan PyFloat.inf 1.7%float); try reflexivity.
    right. reflexivity.
Defined.

(** The two infinite entries are where the proviso is needed. *)
Example bmi_infinite_inputs : bmi PyFloat.inf PyFloat.inf = Ok PyFloat.nan.
Proof. vm_compute. reflexivity. Qed.

(** ** The classifier along the order *)

Module FloatOrderLe.

Import FloatOrder.

Lemma SFcompare_eq_lt_trans (x y z : spec_float) :
  SFcompare x y = Some Eq -> SFcompare y z = Some Lt -> SFcompare x z = Some Lt.
Proof. destruct x, y, z; intros Hxy Hyz; revert Hxy Hyz; sf_order. Qed.

Lemma leb_ltb_trans (x y z : float) :
  PrimFloat.leb x y = true -> PrimFloat.ltb y z = true -> PrimFloat.ltb x z = true.
Proof.
  rewrite !ltb_iff, leb_iff. intros [Hxy|Hxy] Hyz.
  - eapply SFcompare_lt_trans; eassumption.
  - eapply SFcompare_eq_lt_trans; eassumption.
Qed.

Lemma ltb_leb (x y : float) :
  PrimFloat.ltb x y = true -> PrimFloat.leb x y = true.
Proof. rewrite ltb_iff, leb_iff. auto. Qed.

(** Two floats that are not NaN compare one way or the other. *)
Lemma leb_or_ltb (x y : float) :
  PrimFloat.is_nan x = false -> PrimFloat.is_nan y = false ->
  PrimFloat.leb x y = true \/ PrimFloat.ltb y x = true.
Proof.
  intros Hx Hy. rewrite (ltb_negb_leb y x Hy Hx).
  destruct (PrimFloat.leb x y); auto.
Qed.

End FloatOrderLe.

(** The band of a value that is not NaN, with the interval that puts it
    there. *)
Lemma classify_bmi_band (b : float) :
  PyFloat.isnan b = false ->
  PyFloat.lt b 18.5%float = true /\
    classify_bmi b = ("Underweight", "info") \/
  PyFloat.le 18.5%float b = true /\ PyFloat.lt b 25.0%float = true /\
    classify_bmi b = ("Normal", "ok") \/
  PyFloat.le 25.0%float b = true /\ PyFloat.lt b 30.0%float = true /\
    classify_bmi b = ("Overweight", "warn") \/
  PyFloat.le 30.0%float b = true /\
    classify_bmi b = ("Obese", "alert").
Proof.
  intros Hnan. unfold classify_bmi. rewrite Hnan.
  pose proof (below_or_from b Hnan 18.5%float eq_refl) as H18.
  pose proof (below_or_from b Hnan 25.0%float eq_refl) as H25.
  pose proof (below_or_from b Hnan 30.0%float eq_refl) as H30.
  destruct (PyFloat.lt b 18.5%float); [left; split; reflexivity | right].
  destruct (PyFloat.lt b 25.0%float).
  { left. destruct (PyFloat.le 18.5%float b); [auto | discriminate H18]. }
  right. destruct (PyFloat.lt b 30.0%float).
  { left. destruct (PyFloat.le 25.0%float b); [auto | discriminate H25]. }
  right. destruct (PyFloat.le 30.0%float b); [auto | discriminate H30].
Qed.

(** Below a threshold [c], so is everything smaller. *)
Lemma below_down (a b c : float) :
  PyFloat.le a b = true -> PyFloat.lt b c = true -> PyFloat.lt a c = true.
Proof. exact (FloatOrderLe.leb_ltb_trans a b c). Qed.

Lemma from_and_below (b c : float) :
  PyFloat.le c b = true -> PyFloat.lt b c = true -> False.
Proof.
  unfold PyFloat.le, PyFloat.lt. intros H1 H2.
  rewrite (FloatOrder.leb_ltb_false _ _ H1) in H2. discriminate H2.
Qed.

(** X7. [classify_bmi] is monotone: of two values that are not NaN, the
    larger one is never put in an earlier row of the band table. *)
Theorem classify_bmi_monotone (a b : float) :
  PyFloat.isnan a = false -> PyFloat.isnan b = false ->
  PyFloat.le a b = true ->
  exists i j : nat,
    band_index (classify_bmi a).1 = Some i /\
    band_index (classify_bmi b).1 = Some j /\
    (i <= j)%nat.
Proof.
  intros Ha Hb Hab.
  pose proof (below_down a b 18.5%float Hab) as D18.
  pose proof (below_down a b 25.0%float Hab) as D25.
  pose proof (below_down a b 30.0%float Hab) as D30.
  destruct (classify_bmi_band a Ha)
    as [(A1 & ->) | [(A1 & A2 & ->) | [(A1 & A2 & ->) | (A1 & ->)]]];
  destruct (classify_bmi_band b Hb)
    as [(B1 & ->) | [(B1 & B2 & ->) | [(B1 & B2 & ->) | (B1 & ->)]]];
  try (do 2 eexists; split; [reflexivity | split; [reflexivity | lia]]);
  exfalso;
  first [ exact (from_and_below a 18.5%float A1 (D18 B1))
        | exact (from_and_below a 25.0%float A1 (D25 B2))
        | exact (from_and_below a 25.0%float A1
                   (D25 (below_mono b 18.5%float 25.0%float eq_refl B1)))
        | exact (from_and_below a 30.0%float A1 (D30 B2))
        | exact (from_and_below a 30.0%float A1
                   (D30 (below_mono b 25.0%float 30.0%float eq_refl B2)))
        | exact (from_and_below a 30.0%float A1
                   (D30 (below_mono b 25.0%float 30.0%float eq_refl
                           (below_mono b 18.5%float 25.0%float eq_refl B1)))) ].
Qed.

Lemma classify_bmi_monotone_witness :
  exists i j : nat,
    band_index (classify_bmi 24.9%float).1 = Some i /\
    band_index (classify_bmi 25.0%float).1 = Some j /\
    (i <= j)%nat.
Proof.
  apply (classify_bmi_monotone 24.9%float 25.0%float); reflexivity.
Defined.

(** ** From the classifier to what is shown *)

(** The five answers of [classify_bmi], by whether the value is NaN. *)
Lemma classify_bmi_answers (b : float) :
  PyFloat.isnan b = true /\ classify_bmi b = ("—", "info") \/
  PyFloat.isnan b = false /\
    (classify_bmi b = ("Underweight", "info") \/
     classify_bmi b = ("Normal", "ok") \/
     classify_bmi b = ("Overweight", "warn") \/
     classify_bmi b = ("Obese", "alert")).
Proof.
  unfold classify_bmi. destruct (PyFloat.isnan b); [left; auto | right].
  split; [reflexivity |].
  destruct (PyFloat.lt b 18.5%float); [auto |].
  destruct (PyFloat.lt b 25.0%float); [auto |].
  destruct (PyFloat.lt b 30.0%float); auto.
Qed.

(** How many recommendations the category of a value has. *)
Lemma recommendations_count (b : float) :
  length (recommendations (classify_bmi b).1)
  = (if PyFloat.isnan b then 0 else 4)%nat.
Proof.
  destruct (classify_bmi_answers b) as [[-> ->] | [-> [-> | [-> | [-> | ->]]]]];
    vm_compute; reflexivity.
Qed.

(** X8. Every category [classify_bmi] returns is a key of the recommendation
    table, so the default of the lookup is never what a classified value
    gets: a value that is not NaN gets exactly four recommendations, NaN the
    empty list of the placeholder. *)
Theorem classify_bmi_has_recommendations (b : float) :
  is_Some (recs !! (classify_bmi b).1) /\
  length (recommendations (classify_bmi b).1)
  = (if PyFloat.isnan b then 0 else 4)%nat.
Proof.
  split; [| exact (recommendations_count b)].
  destruct (classify_bmi_answers b) as [[_ ->] | [_ [-> | [-> | [-> | ->]]]]];
    vm_compute; eauto.
Qed.


(** X10. The marker is drawn on the bar of the category: for a value that is
    not NaN, the chart has a bar with the label [classify_bmi] returns, and
    the position of the marker lies between the start and the end of that
    bar, ends included. *)
Theorem marker_on_category_bar (b : float) :
  PyFloat.isnan b = false ->
  exists (lo hi : float) (color : string),
    In ((classify_bmi b).1, lo, hi, color) (thresholds (render_band_chart b)) /\
    PyFloat.le lo (point_val (render_band_chart b)) = true /\
    PyFloat.le (point_val (render_band_chart b)) hi = true.
Proof.
  intros Hnan.
  assert (point_val (render_band_chart b) = Numpy.clip b 10.0%float 40.0%float) as ->.
  { unfold render_band_chart. simpl. rewrite Hnan. reflexivity. }
  unfold render_band_chart, thresholds.
  destruct (FloatOrderLe.leb_or_ltb b 10.0%float Hnan eq_refl) as [Hlo | Hlo].
  { (* at most 10: the marker is at 10, the category Underweight *)
    rewrite (clip_below b Hnan Hlo).
    assert (classify_bmi b = ("Underweight", "info")) as ->.
    { unfold classify_bmi. rewrite Hnan.
      rewrite (below_down b 10.0%float 18.5%float Hlo eq_refl). reflexivity. }
    exists 10.0%float, 18.5%float, "#1976D2". simpl. auto. }
  destruct (FloatOrderLe.leb_or_ltb 40.0%float b eq_refl Hnan) as [Hhi | Hhi].
  { (* from 40 on: the marker is at 40, the category Obese *)
    rewrite (clip_above b Hnan Hhi).
    assert (classify_bmi b = ("Obese", "alert")) as ->.
    { destruct (classify_bmi_band b Hnan)
        as [(B1 & _) | [(_ & B2 & _) | [(_ & B2 & _) | (_ & E)]]]; [| | | exact E];
        exfalso.
      - exact (from_and_below b 40.0%float Hhi
                 (below_mono b 18.5%float 40.0%float eq_refl B1)).
      - exact (from_and_below b 40.0%float Hhi
                 (below_mono b 25.0%float 40.0%float eq_refl B2)).
      - exact (from_and_below b 40.0%float Hhi
                 (below_mono b 30.0%float 40.0%float eq_refl B2)). }
    exists 30.0%float, 40.0%float, "#C62828". simpl. auto 10. }
  (* strictly between: the marker is at the value *)
  rewrite (clip_inside b Hnan Hlo Hhi).
  pose proof (FloatOrderLe.ltb_leb _ _ Hlo) as Hlo'.
  pose proof (FloatOrderLe.ltb_leb _ _ Hhi) as Hhi'.
  destruct (classify_bmi_band b Hnan)
    as [(B1 & ->) | [(B1 & B2 & ->) | [(B1 & B2 & ->) | (B1 & ->)]]]; simpl.
  - exists 10.0%float, 18.5%float, "#1976D2".
    split; [auto | split; [exact Hlo' | exact (FloatOrderLe.ltb_leb _ _ B1)]].
  - exists 18.5%float, 25.0%float, "#2E7D32".
    split; [auto | split; [exact B1 | exact (FloatOrderLe.ltb_leb _ _ B2)]].
  - exists 25.0%float, 30.0%float, "#ED6C02".
    split; [auto | split; [exact B1 | exact (FloatOrderLe.ltb_leb _ _ B2)]].
  - exists 30.0%float, 40.0%float, "#C62828".
    split; [auto 10 | split; [exact B1 | exact Hhi']].
Qed.

Lemma marker_on_category_bar_witness :
  exists (lo hi : float) (color : string),
    In ((classify_bmi 52.3%float).1, lo, hi, color)
       (thresholds (render_band_chart 52.3%float)) /\
    PyFloat.le lo (point_val (render_band_chart 52.3%float)) = true /\
    PyFloat.le (point_val (render_band_chart 52.3%float)) hi = true.
Proof.
  apply (marker_on_category_bar 52.3%float). reflexivity.
Defined.

(** X11. The rows of [BMI_BANDS] do not overlap: every float lies in at most
    one of them, and NaN and the values below zero lie in none. *)
Theorem BMI_BANDS_disjoint (b : float) :
  (length (bands_containing b) <= 1)%nat /\
  (PyFloat.isnan b = true \/ PyFloat.lt b 0%float = true ->
   bands_containing b = []).
Proof.
  unfold bands_containing, BMI_BANDS, in_band. simpl.
  destruct (PyFloat.isnan b) eqn:Hnan.
  - assert (forall c, PyFloat.le c b = false) as Hle.
    { intros c. destruct (PyFloat.le c b) eqn:E; [| reflexivity].
      apply FloatOrder.leb_not_nan in E. destruct E as [_ E].
      unfold PyFloat.isnan in Hnan. congruence. }
    rewrite !Hle. simpl. split; [lia | reflexivity].
  - pose proof (below_or_from b Hnan 0%float eq_refl) as H0.
    destruct (PyFloat.le 0%float b); simpl in H0.
    + destruct (PyFloat.lt b PyFloat.inf);
        threshold_cases b Hnan; simpl; (split; [lia |]);
        intros [Hc | Hc]; congruence.
    + assert (forall c, PrimFloat.ltb 0%float c = true -> PyFloat.le c b = false)
        as Hle.
      { intros c Hc. destruct (PyFloat.le c b) eqn:E; [exfalso | reflexivity].
        exact (from_and_below b c E (below_mono b 0%float c Hc H0)). }
      rewrite (Hle 18.5%float eq_refl), (Hle 25.0%float eq_refl),
        (Hle 30.0%float eq_refl).
      simpl. split; [lia | reflexivity].
Qed.

Lemma BMI_BANDS_disjoint_witness :
  bands_containing (-1.0)%float = [] /\ bands_containing PyFloat.nan = [].
Proof.
  split.
  - apply (proj2 (BMI_BANDS_disjoint (-1.0)%float)). right. reflexivity.
  - apply (proj2 (BMI_BANDS_disjoint PyFloat.nan)). left. reflexivity.
Defined.


